(** * Ring Keypad command model

    A shallow embedding of [custom_components/ring_keypad/model.py]: the
    table of keypad events, the enumerations of keypad codes, the three
    lookup tables, the delay formatter and the three functions that build
    a Z-Wave command.

    Python values are embedded as follows.
    - [int] is [Z]; [//] and [%] with a positive divisor are [Z.div] and
      [Z.modulo] (both round towards minus infinity, as Python does).
    - [str] is [string]; an f-string is a concatenation of its parts,
      formatted from left to right, and an [int] placed in one is
      converted by [str_of_int], which raises for an integer of more
      than 4300 digits as the interpreter does.
    - [int | None] is [option Z].
    - An [enum.IntEnum] class is an inductive type with its [int] value.
    - A [dict] literal is an association list read with [dict_get].
    - A [raise] is the [Raise] constructor of [Result]; an exception
      raised by a call passes through the caller ([bind]). *)

From Stdlib Require Import ZArith String Ascii List Bool Lia.
From Stdlib Require Import DecimalString DecimalFacts DecimalPos DecimalZ.
Import ListNotations.

Open Scope string_scope.
Open Scope Z_scope.

(** ** Python values *)

(** A value of type [str | int], the type of the entries of a command. *)
Inductive PyVal : Type :=
| PyInt (n : Z)
| PyStr (s : string).

Inductive Exception : Type :=
| ValueError (msg : string).

(** The outcome of a call: a returned value or a raised exception. *)
Inductive Result (A : Type) : Type :=
| Ok (a : A)
| Raise (e : Exception).

Arguments Ok {A} a.
Arguments Raise {A} e.

(** What follows a call that may raise: the exception passes through. *)
Definition bind {A B : Type} (r : Result A) (k : A -> Result B) : Result B :=
  match r with
  | Ok a => k a
  | Raise e => Raise e
  end.

Notation "x <- r ;; k" := (bind r (fun x => k))
  (at level 61, r at next level, right associativity).

(** The decimal text of an [int]: decimal digits, a leading minus sign
    for a negative number, no padding. *)
Definition int_repr (n : Z) : string :=
  NilZero.string_of_int (Z.to_int n).

(** [sys.int_info.default_max_str_digits]: the most digits an [int] may
    have when the interpreter converts it to a [str].  The module does
    not call [sys.set_int_max_str_digits], so the default stands. *)
Definition INT_MAX_STR_DIGITS : nat := 4300.

Definition MAX_STR_DIGITS_ERROR : string :=
  "Exceeds the limit (4300 digits) for integer string conversion; use sys.set_int_max_str_digits() to increase the limit".

(** [str(n)] for an [int], also what an f-string does with it: the
    decimal text, or a [ValueError] when the digits, the sign not
    counted, are more than [INT_MAX_STR_DIGITS]. *)
Definition str_of_int (n : Z) : Result string :=
  if (INT_MAX_STR_DIGITS <? String.length (int_repr (Z.abs n)))%nat
  then Raise (ValueError MAX_STR_DIGITS_ERROR)
  else Ok (int_repr n).

(** A [dict] literal, in the order it is written. *)
Definition dict (K V : Type) : Type := list (K * V).

(** [d.get(k)]: the value stored under [k], or [None]. *)
Fixpoint dict_get {K V : Type} (eqb : K -> K -> bool) (d : dict K V) (k : K)
  : option V :=
  match d with
  | [] => None
  | (k', v) :: rest => if eqb k' k then Some v else dict_get eqb rest k
  end.

Definition keys {K V : Type} (d : dict K V) : list K := map fst d.

(** ** Constants *)

Definition EVENT_COMMAND_CLASS : string := "111".
Definition COMMAND_CLASS : string := "135".
Definition ENDPOINT : Z := 0.
Definition MODE_PROPERTY_KEY : Z := 1.
Definition DELAY_PROPERTY_KEY : Z := 7.
Definition NOTIFICATION_SOUND_PROPERTY_KEY : Z := 9.
Definition MAX_VALUE : Z := 100.
Definition PROPERTY_KEY_TIMEOUT : string := "timeout".

(** ** Enumerations *)

(** [homeassistant.components.alarm_control_panel.AlarmControlPanelState],
    a string enumeration of the library the module imports; [str_value] is
    the member's value, which is also what an f-string prints. *)
Module AlarmControlPanelState.

Inductive t : Type :=
| DISARMED
| ARMED_HOME
| ARMED_AWAY
| ARMED_NIGHT
| ARMED_VACATION
| ARMED_CUSTOM_BYPASS
| PENDING
| ARMING
| DISARMING
| TRIGGERED.

Definition str_value (s : t) : string :=
  match s with
  | DISARMED => "disarmed"
  | ARMED_HOME => "armed_home"
  | ARMED_AWAY => "armed_away"
  | ARMED_NIGHT => "armed_night"
  | ARMED_VACATION => "armed_vacation"
  | ARMED_CUSTOM_BYPASS => "armed_custom_bypass"
  | PENDING => "pending"
  | ARMING => "arming"
  | DISARMING => "disarming"
  | TRIGGERED => "triggered"
  end.

(** Members are singletons: [is] and [==] agree on them. *)
Definition eqb (a b : t) : bool :=
  match a, b with
  | DISARMED, DISARMED
  | ARMED_HOME, ARMED_HOME
  | ARMED_AWAY, ARMED_AWAY
  | ARMED_NIGHT, ARMED_NIGHT
  | ARMED_VACATION, ARMED_VACATION
  | ARMED_CUSTOM_BYPASS, ARMED_CUSTOM_BYPASS
  | PENDING, PENDING
  | ARMING, ARMING
  | DISARMING, DISARMING
  | TRIGGERED, TRIGGERED => true
  | _, _ => false
  end.

End AlarmControlPanelState.

Module Message.

Inductive t : Type :=
| INVALID_CODE
| NEED_BYPASS
| DISARMED
| ARMED_AWAY
| ARMED_HOME
| GENERIC_ALARM
| BURGLAR_ALARM
| SMOKE_ALARM
| CO2_ALARM
| MEDICAL_ALARM.

Definition int (m : t) : Z :=
  match m with
  | INVALID_CODE => 9
  | NEED_BYPASS => 16
  | DISARMED => 2
  | ARMED_AWAY => 11
  | ARMED_HOME => 10
  | GENERIC_ALARM => 12
  | BURGLAR_ALARM => 13
  | SMOKE_ALARM => 14
  | CO2_ALARM => 15
  | MEDICAL_ALARM => 19
  end.

End Message.

Module Delay.

Inductive t : Type :=
| ENTRY_DELAY
| EXIT_DELAY.

Definition int (d : t) : Z :=
  match d with
  | ENTRY_DELAY => 17
  | EXIT_DELAY => 18
  end.

End Delay.

Module NotificationSound.

Inductive t : Type :=
| DOUBLE_BEEP
| GUITAR_RIFF
| WIND_CHIME
| BING_BONG
| DOORBELL.

Definition int (s : t) : Z :=
  match s with
  | DOUBLE_BEEP => 96
  | GUITAR_RIFF => 97
  | WIND_CHIME => 98
  | BING_BONG => 99
  | DOORBELL => 100
  end.

End NotificationSound.

(** A value stored in one of the tables: a member of one of the three
    [IntEnum] classes.  The constructor is the class that [isinstance]
    tests. *)
Inductive Code : Type :=
| OfMessage (m : Message.t)
| OfDelay (d : Delay.t)
| OfSound (s : NotificationSound.t).

(** [int(code)]. *)
Definition int_of (c : Code) : Z :=
  match c with
  | OfMessage m => Message.int m
  | OfDelay d => Delay.int d
  | OfSound s => NotificationSound.int s
  end.

Definition isinstance_Delay (c : Code) : bool :=
  match c with OfDelay _ => true | _ => false end.

Definition isinstance_NotificationSound (c : Code) : bool :=
  match c with OfSound _ => true | _ => false end.

Definition isinstance_Message (c : Code) : bool :=
  match c with OfMessage _ => true | _ => false end.

(** The value bound by [if not (x := table.get(key)): raise ...] once the
    test has passed.  [not x] holds when [x] is [None] and also when [x] is
    an [IntEnum] member whose [int] is [0]; in both cases the function
    raises, which is [None] here. *)
Definition truthy (x : option Code) : option Code :=
  match x with
  | None => None
  | Some c => if int_of c =? 0 then None else Some c
  end.

(** ** Tables *)

Definition ALARM_STATE : dict AlarmControlPanelState.t Code :=
  [ (AlarmControlPanelState.ARMED_AWAY, OfMessage Message.ARMED_AWAY);
    (AlarmControlPanelState.ARMED_HOME, OfMessage Message.ARMED_HOME);
    (AlarmControlPanelState.ARMING, OfDelay Delay.EXIT_DELAY);
    (AlarmControlPanelState.DISARMED, OfMessage Message.DISARMED);
    (AlarmControlPanelState.PENDING, OfDelay Delay.ENTRY_DELAY);
    (AlarmControlPanelState.TRIGGERED, OfMessage Message.BURGLAR_ALARM) ].

Definition CHIME : dict string Code :=
  [ ("invalid_code", OfMessage Message.INVALID_CODE);
    ("need_bypass", OfMessage Message.NEED_BYPASS);
    ("double_beep", OfSound NotificationSound.DOUBLE_BEEP);
    ("guitar_riff", OfSound NotificationSound.GUITAR_RIFF);
    ("wind_chime", OfSound NotificationSound.WIND_CHIME);
    ("bing_bong", OfSound NotificationSound.BING_BONG);
    ("doorbell", OfSound NotificationSound.DOORBELL) ].

Definition ALARM : dict string Code :=
  [ ("generic", OfMessage Message.GENERIC_ALARM);
    ("burglar", OfMessage Message.BURGLAR_ALARM);
    ("smoke", OfMessage Message.SMOKE_ALARM);
    ("co2", OfMessage Message.CO2_ALARM);
    ("medical", OfMessage Message.MEDICAL_ALARM) ].

(** ** Commands *)

(** The dictionary the three functions return, one field per key. *)
Record Command : Type := mkCommand {
  command_class : string;
  endpoint : Z;
  property : Z;
  property_key : PyVal;
  value : PyVal
}.

(** [_format_delay(delay)]. *)
Definition _format_delay (delay : option Z) : Result string :=
  let total_seconds := match delay with Some d => d | None => 0 end in
  let minutes := total_seconds / 60 in
  let seconds := total_seconds mod 60 in
  minutes_str <- str_of_int minutes ;;
  seconds_str <- str_of_int seconds ;;
  Ok (minutes_str ++ "m" ++ seconds_str ++ "s").

(** [alarm_command(alarm)]. *)
Definition alarm_command (alarm : string) : Result Command :=
  match truthy (dict_get String.eqb ALARM alarm) with
  | None => Raise (ValueError ("Invalid chime command: " ++ alarm))
  | Some property =>
      Ok {| command_class := COMMAND_CLASS;
            endpoint := ENDPOINT;
            property := int_of property;
            property_key := PyInt NOTIFICATION_SOUND_PROPERTY_KEY;
            value := PyInt MAX_VALUE |}
  end.

(** [chime_command(chime)]. *)
Definition chime_command (chime : string) : Result Command :=
  match truthy (dict_get String.eqb CHIME chime) with
  | None => Raise (ValueError ("Invalid chime command: " ++ chime))
  | Some message =>
      let property_key :=
        if isinstance_NotificationSound message
        then NOTIFICATION_SOUND_PROPERTY_KEY
        else MODE_PROPERTY_KEY in
      Ok {| command_class := COMMAND_CLASS;
            endpoint := ENDPOINT;
            property := int_of message;
            property_key := PyInt property_key;
            value := PyInt MAX_VALUE |}
  end.

(** ** Reading a decimal numeral

    What the rendered duration has to mean is stated on its own, by
    reading the characters back. *)

(** The value of a decimal digit character. *)
Definition digit_of_ascii (c : ascii) : option Z :=
  let n := Z.of_nat (nat_of_ascii c) in
  if (48 <=? n) && (n <=? 57) then Some (n - 48) else None.

(** The value of a sequence of digits, read from the left on top of
    [acc]; [None] when a character is not a digit. *)
Fixpoint numeral_acc (acc : Z) (s : string) : option Z :=
  match s with
  | EmptyString => Some acc
  | String c s' =>
      match digit_of_ascii c with
      | Some d => numeral_acc (10 * acc + d) s'
      | None => None
      end
  end.

(** The value of a non-empty sequence of digits. *)
Definition numeral (s : string) : option Z :=
  match s with
  | EmptyString => None
  | _ => numeral_acc 0 s
  end.

(** A numeral is padded when a ["0"] is followed by another character. *)
Definition zero_padded (s : string) : bool :=
  match s with
  | String c (String _ _) => Ascii.eqb c "0"
  | _ => false
  end.

(** [s] is the decimal numeral of [n], without padding. *)
Definition renders (n : Z) (s : string) : Prop :=
  numeral s = Some n /\ zero_padded s = false.

(** ** Keypad events *)

(** [KEYAD_EVENTS]: for each event of the keypad its name, its number
    and the event type of the event entity. *)
Definition KEYAD_EVENTS : list (string * Z * string) :=
  [ ("code_started", 0, "pressed");
    ("code_timeout", 1, "pressed");
    ("code_cancel", 25, "pressed");
    ("code_entered", 2, "alarm_disarm");
    ("disarm", 3, "alarm_disarm");
    ("arm_away", 5, "alarm_arm_away");
    ("arm_stay", 6, "alarm_arm_home");
    ("fire", 16, "pressed");
    ("police", 17, "pressed");
    ("medical", 19, "pressed") ].

Definition event_name (e : string * Z * string) : string := fst (fst e).
Definition event_number (e : string * Z * string) : Z := snd (fst e).
Definition event_type (e : string * Z * string) : string := snd e.

(** ** Characters of a string *)

(** Whether the character [c] occurs in [s]. *)
Fixpoint has_char (c : ascii) (s : string) : bool :=
  match s with
  | EmptyString => false
  | String a s' => Ascii.eqb a c || has_char c s'
  end.

(** The delay a call formats: [None] counts as [0] seconds. *)
Definition total_seconds_of (delay : option Z) : Z :=
  match delay with
  | Some d => d
  | None => 0
  end.

(** [s] is the decimal numeral of [n], with a minus sign in front of
    the digits when [n] is negative. *)
Definition renders_signed (n : Z) (s : string) : Prop :=
  match n with
  | Z.neg p => exists digits, s = String "-" digits /\ renders (Z.pos p) digits
  | _ => renders n s
  end.

Section Model.

(** [DEFAULT_DELAY], imported from the package's [const] module: an
    [int] number of seconds. *)
Variable DEFAULT_DELAY : Z.

(** [alarm_state_command(state, delay)]. *)
Definition alarm_state_command
    (state : AlarmControlPanelState.t) (delay : option Z) : Result Command :=
  match truthy (dict_get AlarmControlPanelState.eqb ALARM_STATE state) with
  | None =>
      Raise (ValueError ("Invalid alarm state command: "
                         ++ AlarmControlPanelState.str_value state))
  | Some message =>
      let property_key := PyInt MODE_PROPERTY_KEY in
      let value := PyInt MAX_VALUE in
      assigned <-
        (if isinstance_Delay message then
           let property_key := PyStr PROPERTY_KEY_TIMEOUT in
           let value :=
             match delay with
             | None => DEFAULT_DELAY
             | Some d => d
             end in
           value <- _format_delay (Some value) ;;
           Ok (property_key, PyStr value)
         else if AlarmControlPanelState.eqb state AlarmControlPanelState.TRIGGERED
         then Ok (PyInt NOTIFICATION_SOUND_PROPERTY_KEY, value)
         else Ok (property_key, value)) ;;
      let '(property_key, value) := assigned in
      Ok {| command_class := COMMAND_CLASS;
            endpoint := ENDPOINT;
            property := int_of message;
            property_key := property_key;
            value := value |}
  end.

(** ** Printing and reading agree

    [int_repr] prints with the Standard Library's decimal numerals;
    [numeral] reads a string on its own.  For a number that is not
    negative the two agree, and no other unpadded numeral reads as the
    same number. *)

(** Evaluates the digit at the head of the string being read. *)
Ltac read_digit :=
  cbn [NilEmpty.string_of_uint numeral_acc Pos.of_uint_acc Pos.of_uint];
  match goal with
  | |- context [digit_of_ascii ?c] =>
      let v := eval vm_compute in (digit_of_ascii c) in
      change (digit_of_ascii c) with v; cbv iota
  end.

Lemma numeral_acc_of_uint_acc (d : Decimal.uint) (acc : positive) :
  numeral_acc (Z.pos acc) (NilEmpty.string_of_uint d)
  = Some (Z.pos (Pos.of_uint_acc d acc)).
Proof.
  revert acc.
  induction d as [| d IH | d IH | d IH | d IH | d IH | d IH | d IH | d IH | d IH | d IH];
    intros acc; [reflexivity | ..];
    read_digit; rewrite <- IH; f_equal; lia.
Qed.

Lemma numeral_acc_of_uint (d : Decimal.uint) :
  numeral_acc 0 (NilEmpty.string_of_uint d) = Some (Z.of_N (Pos.of_uint d)).
Proof.
  induction d as [| d IH | d IH | d IH | d IH | d IH | d IH | d IH | d IH | d IH | d IH];
    [reflexivity | exact IH | ..];
    read_digit; apply numeral_acc_of_uint_acc.
Qed.

Lemma string_of_uint_nonempty (d : Decimal.uint) :
  d <> Decimal.Nil -> NilEmpty.string_of_uint d <> EmptyString.
Proof. destruct d; intros H; try discriminate. now elim H. Qed.

Lemma to_uint_normal (p : positive) :
  Decimal.unorm (Pos.to_uint p) = Pos.to_uint p.
Proof.
  rewrite <- (DecimalPos.Unsigned.to_of (Pos.to_uint p)).
  now rewrite DecimalPos.Unsigned.of_to.
Qed.

Lemma int_repr_pos (p : positive) :
  int_repr (Z.pos p) = NilEmpty.string_of_uint (Pos.to_uint p).
Proof.
  unfold int_repr. cbn [Z.to_int NilZero.string_of_int].
  pose proof (DecimalPos.Unsigned.to_uint_nonnil p) as Hnil.
  destruct (Pos.to_uint p); try reflexivity. now elim Hnil.
Qed.

Lemma zero_padded_normal (d : Decimal.uint) :
  Decimal.unorm d = d -> zero_padded (NilEmpty.string_of_uint d) = false.
Proof.
  intros Hd.
  destruct d as [| d | d | d | d | d | d | d | d | d | d];
    [reflexivity | | now destruct d ..].
  rewrite DecimalFacts.unorm_D0 in Hd. unfold Decimal.unorm in Hd.
  destruct (Decimal.nzhead d) eqn:Hz; try discriminate Hd.
  - injection Hd as <-. reflexivity.
  - now elim (DecimalFacts.nzhead_nonzero _ _ Hz).
Qed.

Lemma int_repr_renders (n : Z) : 0 <= n -> renders n (int_repr n).
Proof.
  intros Hn. destruct n as [| p | p]; [now split | | lia].
  rewrite int_repr_pos. split.
  - unfold numeral.
    pose proof (string_of_uint_nonempty _ (DecimalPos.Unsigned.to_uint_nonnil p)) as Hne.
    destruct (NilEmpty.string_of_uint (Pos.to_uint p)) eqn:Hs; [now elim Hne |].
    rewrite <- Hs, numeral_acc_of_uint, DecimalPos.Unsigned.of_to. reflexivity.
  - apply zero_padded_normal, to_uint_normal.
Qed.

Lemma digit_of_ascii_uint (c : ascii) (k : Z) :
  digit_of_ascii c = Some k ->
  exists D : Decimal.uint -> Decimal.uint,
    (forall d, NilEmpty.string_of_uint (D d)
               = String c (NilEmpty.string_of_uint d))
    /\ (forall d, D d <> Decimal.Nil)
    /\ (Ascii.eqb c "0" = false -> forall d, Decimal.unorm (D d) = D d).
Proof.
  destruct c as [[] [] [] [] [] [] [] []]; try discriminate; intros _;
    first
      [ exists Decimal.D0; repeat split; discriminate
      | exists Decimal.D1; now repeat split
      | exists Decimal.D2; now repeat split
      | exists Decimal.D3; now repeat split
      | exists Decimal.D4; now repeat split
      | exists Decimal.D5; now repeat split
      | exists Decimal.D6; now repeat split
      | exists Decimal.D7; now repeat split
      | exists Decimal.D8; now repeat split
      | exists Decimal.D9; now repeat split ].
Qed.

Lemma numeral_acc_digits (s : string) (acc v : Z) :
  numeral_acc acc s = Some v ->
  exists d, s = NilEmpty.string_of_uint d.
Proof.
  revert acc. induction s as [| c s IH]; intros acc H.
  - now exists Decimal.Nil.
  - cbn [numeral_acc] in H.
    destruct (digit_of_ascii c) as [k |] eqn:Hc; [| discriminate].
    destruct (IH _ H) as [d ->].
    destruct (digit_of_ascii_uint _ _ Hc) as (D & HD & _).
    exists (D d). now rewrite HD.
Qed.

Lemma renders_int_repr (n : Z) (s : string) :
  renders n s -> s = int_repr n.
Proof.
  intros [Hnum Hpad].
  assert (exists d, s = NilEmpty.string_of_uint d
                    /\ d <> Decimal.Nil /\ Decimal.unorm d = d)
    as (d & -> & Hnil & Hnorm).
  { destruct s as [| c s]; [discriminate |].
    unfold numeral in Hnum. cbn [numeral_acc] in Hnum.
    destruct (digit_of_ascii c) as [k |] eqn:Hc; [| discriminate].
    destruct (numeral_acc_digits _ _ _ Hnum) as [d ->].
    destruct (digit_of_ascii_uint _ _ Hc) as (D & HD & HDnil & HDnorm).
    exists (D d). rewrite HD. repeat split; [apply HDnil |].
    destruct (Ascii.eqb c "0") eqn:Hz; [| now apply HDnorm].
    apply Ascii.eqb_eq in Hz. subst c.
    destruct d; try discriminate Hpad.
    specialize (HD Decimal.Nil). cbn in HD.
    destruct (D Decimal.Nil) as [| u | u | u | u | u | u | u | u | u | u];
      try discriminate HD.
    destruct u; try discriminate HD. reflexivity. }
  unfold numeral in Hnum.
  pose proof (string_of_uint_nonempty _ Hnil) as Hne.
  destruct (NilEmpty.string_of_uint d) eqn:Hs; [now elim Hne |].
  rewrite <- Hs in *. rewrite numeral_acc_of_uint in Hnum.
  injection Hnum as <-.
  pose proof (DecimalPos.Unsigned.to_of d) as Hto. rewrite Hnorm in Hto.
  destruct (Pos.of_uint d) as [| p].
  - cbn in Hto. now subst d.
  - cbn [Z.of_N]. rewrite int_repr_pos. cbn in Hto. now rewrite Hto.
Qed.

Lemma renders_unique (n : Z) (s1 s2 : string) :
  renders n s1 -> renders n s2 -> s1 = s2.
Proof.
  intros H1 H2.
  now rewrite (renders_int_repr _ _ H1), (renders_int_repr _ _ H2).
Qed.


Lemma has_char_string_of_uint (c : ascii) (d : Decimal.uint) :
  digit_of_ascii c = None -> has_char c (NilEmpty.string_of_uint d) = false.
Proof.
  intros Hc.
  induction d as [| d IH | d IH | d IH | d IH | d IH | d IH | d IH | d IH | d IH | d IH];
    [reflexivity | ..];
    cbn [NilEmpty.string_of_uint has_char]; rewrite IH, orb_false_r;
    (match goal with
     | |- Ascii.eqb ?a c = false =>
         destruct (Ascii.eqb_spec a c) as [<- | _]; [discriminate Hc | reflexivity]
     end).
Qed.

Lemma int_repr_neg (p : positive) :
  int_repr (Z.neg p) = String "-" (int_repr (Z.pos p)).
Proof. reflexivity. Qed.

Lemma has_char_int_repr (c : ascii) (n : Z) :
  digit_of_ascii c = None -> c <> "-"%char -> has_char c (int_repr n) = false.
Proof.
  intros Hc Hminus. destruct n as [| p | p].
  - change (int_repr 0) with "0". cbn [has_char].
    destruct (Ascii.eqb_spec "0" c) as [<- | _]; [discriminate Hc | reflexivity].
  - rewrite int_repr_pos. now apply has_char_string_of_uint.
  - rewrite int_repr_neg, int_repr_pos. cbn [has_char].
    rewrite has_char_string_of_uint by assumption.
    destruct (Ascii.eqb_spec "-" c) as [<- | _]; [now elim Hminus | reflexivity].
Qed.

(** A string is cut in one way only at the first occurrence of [c]. *)
Lemma append_char_inj (c : ascii) (a a' b b' : string) :
  has_char c a = false -> has_char c a' = false ->
  a ++ String c b = a' ++ String c b' -> a = a' /\ b = b'.
Proof.
  revert a'. induction a as [| x a IH]; intros [| x' a'] Ha Ha' H;
    cbn [append has_char] in *.
  - injection H as <-. now split.
  - injection H as <- _. now rewrite Ascii.eqb_refl in Ha'.
  - injection H as -> _. now rewrite Ascii.eqb_refl in Ha.
  - injection H as <- H.
    apply orb_false_iff in Ha as [_ Ha], Ha' as [_ Ha'].
    destruct (IH _ Ha Ha' H) as [-> ->]. now split.
Qed.

Lemma to_int_proper (n : Z) :
  Z.to_int n <> Decimal.Pos Decimal.Nil /\ Z.to_int n <> Decimal.Neg Decimal.Nil.
Proof.
  destruct n as [| p | p]; cbn; split; try discriminate;
    intros [= H]; now apply (DecimalPos.Unsigned.to_uint_nonnil p).
Qed.

Lemma int_repr_inj (a b : Z) : int_repr a = int_repr b -> a = b.
Proof.
  intros H. apply DecimalZ.to_int_inj.
  apply (f_equal NilZero.int_of_string) in H. unfold int_repr in H.
  rewrite !NilZero.isi in H by apply to_int_proper.
  now injection H.
Qed.


(** ** The limit on digits

    A number has at most [k] digits exactly when it is below [10 ^ k],
    so that [str_of_int] raises exactly from [10 ^ 4300] on. *)

Lemma digit_of_ascii_range (c : ascii) (d : Z) :
  digit_of_ascii c = Some d -> 0 <= d <= 9.
Proof.
  unfold digit_of_ascii.
  destruct (_ && _) eqn:E; [| discriminate].
  intros [= <-]. apply andb_true_iff in E as [E1 E2].
  apply Z.leb_le in E1, E2. lia.
Qed.

Lemma numeral_acc_bounds (s : string) (acc v : Z) :
  0 <= acc -> numeral_acc acc s = Some v ->
  acc * 10 ^ Z.of_nat (String.length s) <= v
  < (acc + 1) * 10 ^ Z.of_nat (String.length s).
Proof.
  revert acc. induction s as [| c s IH]; intros acc Hacc H.
  - cbn in *. injection H as <-. lia.
  - cbn [numeral_acc] in H.
    destruct (digit_of_ascii c) as [d |] eqn:Hc; [| discriminate].
    apply digit_of_ascii_range in Hc.
    apply IH in H; [| lia].
    cbn [String.length]. rewrite Nat2Z.inj_succ, Z.pow_succ_r by lia.
    set (P := 10 ^ Z.of_nat (String.length s)) in *.
    assert (0 < P) by (apply Z.pow_pos_nonneg; lia).
    nia.
Qed.

Lemma renders_lt_pow (n : Z) (s : string) :
  renders n s -> n < 10 ^ Z.of_nat (String.length s).
Proof.
  intros [Hnum _]. destruct s as [| c s]; [discriminate |].
  unfold numeral in Hnum. apply numeral_acc_bounds in Hnum; lia.
Qed.

Lemma renders_ge_pow (n : Z) (s : string) :
  renders n s -> (2 <= String.length s)%nat ->
  10 ^ (Z.of_nat (String.length s) - 1) <= n.
Proof.
  intros [Hnum Hpad] Hlen.
  destruct s as [| c [| c' s]]; cbn [String.length] in Hlen; try lia.
  cbn [zero_padded] in Hpad. unfold numeral in Hnum.
  remember (String c' s) as t eqn:Ht.
  cbn [numeral_acc] in Hnum.
  destruct (digit_of_ascii c) as [d |] eqn:Hc; [| discriminate].
  assert (1 <= d <= 9) as Hd.
  { pose proof (digit_of_ascii_range _ _ Hc).
    enough (d <> 0) by lia. intros ->.
    destruct c as [[] [] [] [] [] [] [] []]; discriminate. }
  apply numeral_acc_bounds in Hnum; [| lia].
  replace (Z.of_nat (String.length (String c t)) - 1)
    with (Z.of_nat (String.length t))
    by (cbn [String.length]; lia).
  set (P := 10 ^ Z.of_nat (String.length t)) in *.
  assert (0 < P) by (apply Z.pow_pos_nonneg; lia).
  nia.
Qed.

Lemma int_repr_length (n : Z) (k : nat) :
  0 <= n -> (1 <= k)%nat ->
  (String.length (int_repr n) <= k)%nat <-> n < 10 ^ Z.of_nat k.
Proof.
  intros Hn Hk. pose proof (int_repr_renders n Hn) as Hr. split.
  - intros Hlen. apply renders_lt_pow in Hr.
    eapply Z.lt_le_trans; [exact Hr |]. apply Z.pow_le_mono_r; lia.
  - intros Hlt.
    destruct (Nat.le_gt_cases (String.length (int_repr n)) k) as [| Hgt];
      [assumption | exfalso].
    apply renders_ge_pow in Hr; [| lia].
    assert (10 ^ Z.of_nat k <= 10 ^ (Z.of_nat (String.length (int_repr n)) - 1))
      by (apply Z.pow_le_mono_r; lia).
    lia.
Qed.

Lemma limit_eq : Z.of_nat INT_MAX_STR_DIGITS = 4300.
Proof. reflexivity. Qed.

Lemma limit_positive : (1 <= INT_MAX_STR_DIGITS)%nat.
Proof. apply le_n_S, Nat.le_0_l. Qed.

Lemma str_of_int_Ok (n : Z) :
  Z.abs n < 10 ^ 4300 -> str_of_int n = Ok (int_repr n).
Proof.
  intros H. unfold str_of_int.
  assert (Hlen : (String.length (int_repr (Z.abs n)) <= INT_MAX_STR_DIGITS)%nat).
  { apply int_repr_length;
      [apply Z.abs_nonneg | exact limit_positive | rewrite limit_eq; exact H]. }
  destruct (Nat.ltb_spec INT_MAX_STR_DIGITS (String.length (int_repr (Z.abs n))))
    as [Hlt | _]; [| reflexivity].
  now elim (Nat.lt_irrefl _ (Nat.lt_le_trans _ _ _ Hlt Hlen)).
Qed.

Lemma str_of_int_Raise (n : Z) :
  10 ^ 4300 <= Z.abs n ->
  str_of_int n = Raise (ValueError MAX_STR_DIGITS_ERROR).
Proof.
  intros H. unfold str_of_int.
  destruct (Nat.ltb_spec INT_MAX_STR_DIGITS (String.length (int_repr (Z.abs n))))
    as [_ | Hle]; [reflexivity | exfalso].
  apply (int_repr_length (Z.abs n) INT_MAX_STR_DIGITS (Z.abs_nonneg n) limit_positive)
    in Hle.
  rewrite limit_eq in Hle.
  exact (Z.lt_irrefl _ (Z.lt_le_trans _ _ _ Hle H)).
Qed.

(** ** Outcomes of the formatter *)

(** Numbers of a few digits are far below the limit. *)
Lemma pow_2_below_limit : 10 ^ 2 <= 10 ^ 4300.
Proof. apply Z.pow_le_mono_r; [reflexivity | discriminate]. Qed.

Lemma below_limit (n : Z) : Z.abs n < 10 ^ 2 -> Z.abs n < 10 ^ 4300.
Proof. intros H. eapply Z.lt_le_trans; [exact H | exact pow_2_below_limit]. Qed.

Lemma above_limit (n : Z) : - 10 ^ 2 < n -> - 10 ^ 4300 < n.
Proof.
  intros H. eapply Z.le_lt_trans; [| exact H].
  apply Z.opp_le_mono. rewrite !Z.opp_involutive. exact pow_2_below_limit.
Qed.

Lemma seconds_below_limit (n : Z) : n < 60 * 10 ^ 2 -> n < 60 * 10 ^ 4300.
Proof.
  intros H. eapply Z.lt_le_trans; [exact H |].
  apply Z.mul_le_mono_nonneg_l; [discriminate | exact pow_2_below_limit].
Qed.

Lemma sixty_below_limit : 60 <= 10 ^ 4300.
Proof. eapply Z.le_trans; [| exact pow_2_below_limit]. discriminate. Qed.

Lemma format_delay_Ok (d : Z) :
  Z.abs (d / 60) < 10 ^ 4300 ->
  _format_delay (Some d)
  = Ok (int_repr (d / 60) ++ "m" ++ int_repr (d mod 60) ++ "s").
Proof.
  intros H. unfold _format_delay.
  rewrite (str_of_int_Ok _ H). cbn [bind].
  rewrite str_of_int_Ok; [reflexivity |].
  pose proof (Z.mod_pos_bound d 60 eq_refl). pose proof sixty_below_limit.
  rewrite Z.abs_eq by tauto. apply Z.lt_le_trans with 60; tauto.
Qed.

Lemma format_delay_Raise (d : Z) :
  10 ^ 4300 <= Z.abs (d / 60) ->
  _format_delay (Some d) = Raise (ValueError MAX_STR_DIGITS_ERROR).
Proof.
  intros H. unfold _format_delay. now rewrite (str_of_int_Raise _ H).
Qed.

Lemma format_delay_Ok_inv (d : Z) (s : string) :
  _format_delay (Some d) = Ok s ->
  Z.abs (d / 60) < 10 ^ 4300
  /\ s = int_repr (d / 60) ++ "m" ++ int_repr (d mod 60) ++ "s".
Proof.
  intros H. destruct (Z.lt_ge_cases (Z.abs (d / 60)) (10 ^ 4300)) as [Hlt | Hge].
  - rewrite (format_delay_Ok _ Hlt) in H. now injection H as <-.
  - now rewrite (format_delay_Raise _ Hge) in H.
Qed.

Lemma format_delay_inj (a b : Z) (s : string) :
  _format_delay (Some a) = Ok s -> _format_delay (Some b) = Ok s -> a = b.
Proof.
  intros Ha Hb.
  apply format_delay_Ok_inv in Ha as [_ Ha], Hb as [_ Hb].
  rewrite Ha in Hb. clear Ha.
  apply append_char_inj in Hb as [Hmin Hsec];
    [| now apply has_char_int_repr ..].
  apply (append_char_inj "s" _ _ "" "") in Hsec as [Hsec _];
    [| now apply has_char_int_repr ..].
  apply int_repr_inj in Hmin, Hsec.
  rewrite (Z.div_mod a 60), (Z.div_mod b 60) by discriminate.
  now rewrite Hmin, Hsec.
Qed.

Lemma format_delay_total_seconds (delay : option Z) :
  _format_delay delay = _format_delay (Some (total_seconds_of delay)).
Proof. now destruct delay. Qed.

(** The least delay that is not formatted. *)
Lemma format_delay_over_limit :
  _format_delay (Some (60 * 10 ^ 4300))
  = Raise (ValueError MAX_STR_DIGITS_ERROR).
Proof.
  apply format_delay_Raise.
  rewrite Z.mul_comm, Z.div_mul by discriminate.
  rewrite Z.abs_eq by (apply Z.pow_nonneg; discriminate).
  apply Z.le_refl.
Qed.

(** ** Lookups *)

Lemma state_eqb_eq (a b : AlarmControlPanelState.t) :
  AlarmControlPanelState.eqb a b = true <-> a = b.
Proof. split; [destruct a, b; (reflexivity || discriminate) | intros ->; now destruct b]. Qed.

Lemma dict_get_None {K V : Type} (eqb : K -> K -> bool)
    (eqb_eq : forall a b, eqb a b = true <-> a = b) (d : dict K V) (k : K) :
  dict_get eqb d k = None <-> ~ In k (keys d).
Proof.
  induction d as [| [k' v] d IH]; cbn [dict_get keys map fst In].
  - tauto.
  - destruct (eqb k' k) eqn:E.
    + apply eqb_eq in E. split; [discriminate | tauto].
    + assert (k' <> k) by (intros Hk; apply eqb_eq in Hk; congruence).
      unfold keys in IH. tauto.
Qed.

Lemma dict_get_Some_In {K V : Type} (eqb : K -> K -> bool)
    (d : dict K V) (k : K) (v : V) :
  dict_get eqb d k = Some v -> In v (map snd d).
Proof.
  induction d as [| [k' v'] d IH]; cbn [dict_get map snd In]; [discriminate |].
  destruct (eqb k' k); [injection 1; auto | auto].
Qed.

Lemma dict_get_is_Some {K V : Type} (eqb : K -> K -> bool)
    (eqb_eq : forall a b, eqb a b = true <-> a = b) (d : dict K V) (k : K) :
  In k (keys d) -> exists v, dict_get eqb d k = Some v.
Proof.
  intros Hin. destruct (dict_get eqb d k) as [v |] eqn:E; [now exists v |].
  now apply (dict_get_None eqb eqb_eq) in E.
Qed.

(** No member of the three enumerations has the value [0], so the
    truth test of a looked-up value only tells [None] apart. *)
Lemma int_of_nonzero (c : Code) : int_of c <> 0.
Proof. destruct c as [[] | [] | []]; discriminate. Qed.

Lemma truthy_get (x : option Code) : truthy x = x.
Proof.
  destruct x as [c |]; [| reflexivity]. unfold truthy.
  destruct (Z.eqb_spec (int_of c) 0) as [E | _]; [| reflexivity].
  now elim (int_of_nonzero c).
Qed.

Lemma alarm_state_command_unfold (state : AlarmControlPanelState.t)
    (delay : option Z) (message : Code) :
  dict_get AlarmControlPanelState.eqb ALARM_STATE state = Some message ->
  alarm_state_command state delay =
  if isinstance_Delay message then
    value <- _format_delay
               (Some match delay with
                     | None => DEFAULT_DELAY
                     | Some d => d
                     end) ;;
    Ok {| command_class := COMMAND_CLASS;
          endpoint := ENDPOINT;
          property := int_of message;
          property_key := PyStr PROPERTY_KEY_TIMEOUT;
          value := PyStr value |}
  else
    Ok {| command_class := COMMAND_CLASS;
          endpoint := ENDPOINT;
          property := int_of message;
          property_key :=
            if AlarmControlPanelState.eqb state AlarmControlPanelState.TRIGGERED
            then PyInt NOTIFICATION_SOUND_PROPERTY_KEY
            else PyInt MODE_PROPERTY_KEY;
          value := PyInt MAX_VALUE |}.
Proof.
  intros H. unfold alarm_state_command. rewrite truthy_get, H.
  destruct (isinstance_Delay message).
  - now destruct (_format_delay _).
  - now destruct (AlarmControlPanelState.eqb state AlarmControlPanelState.TRIGGERED).
Qed.

(** The three outcomes of a call for a state of the table. *)
Lemma alarm_state_command_outcome (state : AlarmControlPanelState.t)
    (delay : option Z) (message : Code) :
  dict_get AlarmControlPanelState.eqb ALARM_STATE state = Some message ->
  let d := match delay with None => DEFAULT_DELAY | Some d => d end in
  (isinstance_Delay message = false
   /\ alarm_state_command state delay
      = Ok {| command_class := COMMAND_CLASS;
              endpoint := ENDPOINT;
              property := int_of message;
              property_key :=
                if AlarmControlPanelState.eqb state AlarmControlPanelState.TRIGGERED
                then PyInt NOTIFICATION_SOUND_PROPERTY_KEY
                else PyInt MODE_PROPERTY_KEY;
              value := PyInt MAX_VALUE |})
  \/ (isinstance_Delay message = true
      /\ Z.abs (d / 60) < 10 ^ 4300
      /\ alarm_state_command state delay
         = Ok {| command_class := COMMAND_CLASS;
                 endpoint := ENDPOINT;
                 property := int_of message;
                 property_key := PyStr PROPERTY_KEY_TIMEOUT;
                 value := PyStr (int_repr (d / 60) ++ "m"
                                 ++ int_repr (d mod 60) ++ "s") |})
  \/ (isinstance_Delay message = true
      /\ 10 ^ 4300 <= Z.abs (d / 60)
      /\ alarm_state_command state delay
         = Raise (ValueError MAX_STR_DIGITS_ERROR)).
Proof.
  intros H d. rewrite (alarm_state_command_unfold _ _ _ H). fold d.
  destruct (isinstance_Delay message); [right | now left].
  destruct (Z.lt_ge_cases (Z.abs (d / 60)) (10 ^ 4300)) as [Hlt | Hge].
  - left. now rewrite (format_delay_Ok _ Hlt).
  - right. now rewrite (format_delay_Raise _ Hge).
Qed.

Lemma alarm_state_command_missing (state : AlarmControlPanelState.t)
    (delay : option Z) :
  dict_get AlarmControlPanelState.eqb ALARM_STATE state = None ->
  alarm_state_command state delay =
  Raise (ValueError ("Invalid alarm state command: "
                     ++ AlarmControlPanelState.str_value state)).
Proof. intros H. unfold alarm_state_command. now rewrite truthy_get, H. Qed.

Lemma alarm_command_unfold (alarm : string) :
  alarm_command alarm =
  match dict_get String.eqb ALARM alarm with
  | None => Raise (ValueError ("Invalid chime command: " ++ alarm))
  | Some code =>
      Ok {| command_class := COMMAND_CLASS;
            endpoint := ENDPOINT;
            property := int_of code;
            property_key := PyInt NOTIFICATION_SOUND_PROPERTY_KEY;
            value := PyInt MAX_VALUE |}
  end.
Proof. unfold alarm_command. now rewrite truthy_get. Qed.

Lemma chime_command_unfold (chime : string) :
  chime_command chime =
  match dict_get String.eqb CHIME chime with
  | None => Raise (ValueError ("Invalid chime command: " ++ chime))
  | Some code =>
      Ok {| command_class := COMMAND_CLASS;
            endpoint := ENDPOINT;
            property := int_of code;
            property_key :=
              PyInt (if isinstance_NotificationSound code
                     then NOTIFICATION_SOUND_PROPERTY_KEY
                     else MODE_PROPERTY_KEY);
            value := PyInt MAX_VALUE |}
  end.
Proof. unfold chime_command. now rewrite truthy_get. Qed.

(** ** Codes and keys determine each other *)

Lemma int_of_inj (c1 c2 : Code) : int_of c1 = int_of c2 -> c1 = c2.
Proof.
  destruct c1 as [[] | [] | []], c2 as [[] | [] | []];
    intros H; (reflexivity || discriminate H).
Qed.

Lemma dict_get_Some_In_pair {K V : Type} (eqb : K -> K -> bool)
    (eqb_eq : forall a b, eqb a b = true <-> a = b)
    (d : dict K V) (k : K) (v : V) :
  dict_get eqb d k = Some v -> In (k, v) d.
Proof.
  induction d as [| [k' v'] d IH]; cbn [dict_get In]; [discriminate |].
  destruct (eqb k' k) eqn:E; [| auto].
  apply eqb_eq in E. intros [= ->]. left. now subst.
Qed.

(** Splits a membership in a list that is written out into its cases. *)
Ltac in_cases H :=
  cbn [In ALARM_STATE ALARM CHIME] in H;
  repeat (destruct H as [H | H]; [inversion H; subst; clear H |]);
  try contradiction.

Lemma ALARM_STATE_inj (s1 s2 : AlarmControlPanelState.t) (code : Code) :
  dict_get AlarmControlPanelState.eqb ALARM_STATE s1 = Some code ->
  dict_get AlarmControlPanelState.eqb ALARM_STATE s2 = Some code ->
  s1 = s2.
Proof.
  destruct s1, s2; cbn; intros H1 H2;
    (reflexivity || discriminate || congruence).
Qed.

Lemma ALARM_inj (a1 a2 : string) (code : Code) :
  dict_get String.eqb ALARM a1 = Some code ->
  dict_get String.eqb ALARM a2 = Some code ->
  a1 = a2.
Proof.
  intros H1 H2.
  apply (dict_get_Some_In_pair _ String.eqb_eq) in H1, H2.
  in_cases H1; in_cases H2; (reflexivity || discriminate).
Qed.

Lemma CHIME_inj (c1 c2 : string) (code : Code) :
  dict_get String.eqb CHIME c1 = Some code ->
  dict_get String.eqb CHIME c2 = Some code ->
  c1 = c2.
Proof.
  intros H1 H2.
  apply (dict_get_Some_In_pair _ String.eqb_eq) in H1, H2.
  in_cases H1; in_cases H2; (reflexivity || discriminate).
Qed.

Lemma ALARM_CHIME_apart (a c : string) (code code' : Code) :
  dict_get String.eqb ALARM a = Some code ->
  dict_get String.eqb CHIME c = Some code' ->
  a <> c /\ code <> code'.
Proof.
  intros H1 H2.
  apply (dict_get_Some_In_pair _ String.eqb_eq) in H1, H2.
  in_cases H1; in_cases H2; split; discriminate.
Qed.

(** What a returned command of [alarm_state_command] looks like. *)
Lemma alarm_state_command_Ok_inv (state : AlarmControlPanelState.t)
    (delay : option Z) (cmd : Command) :
  alarm_state_command state delay = Ok cmd ->
  exists message,
    dict_get AlarmControlPanelState.eqb ALARM_STATE state = Some message
    /\ command_class cmd = COMMAND_CLASS
    /\ endpoint cmd = ENDPOINT
    /\ property cmd = int_of message
    /\ ((isinstance_Delay message = false
         /\ property_key cmd
            = (if AlarmControlPanelState.eqb state AlarmControlPanelState.TRIGGERED
               then PyInt NOTIFICATION_SOUND_PROPERTY_KEY
               else PyInt MODE_PROPERTY_KEY)
         /\ value cmd = PyInt MAX_VALUE)
        \/ (isinstance_Delay message = true
            /\ property_key cmd = PyStr PROPERTY_KEY_TIMEOUT
            /\ exists s,
                value cmd = PyStr s
                /\ _format_delay
                     (Some match delay with
                           | None => DEFAULT_DELAY
                           | Some d => d
                           end) = Ok s)).
Proof.
  intros H.
  destruct (dict_get AlarmControlPanelState.eqb ALARM_STATE state)
    as [message |] eqn:E;
    [| now rewrite (alarm_state_command_missing _ _ E) in H].
  exists message. split; [reflexivity |].
  rewrite (alarm_state_command_unfold _ _ _ E) in H.
  destruct (isinstance_Delay message).
  - destruct (_format_delay _) as [s |] eqn:Hs; [| discriminate].
    cbn [bind] in H. injection H as <-. repeat split. right.
    repeat split. now exists s.
  - injection H as <-. repeat split. left. now repeat split.
Qed.

Lemma int_repr_renders_signed (n : Z) : renders_signed n (int_repr n).
Proof.
  destruct n as [| p | p]; cbn [renders_signed].
  - now apply int_repr_renders.
  - now apply int_repr_renders.
  - exists (int_repr (Z.pos p)). split; [apply int_repr_neg |].
    now apply int_repr_renders.
Qed.

(** ** The state command *)

(** C1.  For a state of the state table, [alarm_state_command] returns
    a command whose [property] is the [int] of the code the table gives
    the state; when that code is a [Message] and the state is not
    [TRIGGERED], [property_key] is [MODE_PROPERTY_KEY] and [value] is
    [MAX_VALUE].  When the code is a [Delay] this needs the minutes of
    the delay, or of [DEFAULT_DELAY] when there is none, to have at most
    4300 digits: beyond that the conversion of the minutes raises. *)
Theorem alarm_state_command_property
    (state : AlarmControlPanelState.t) (delay : option Z) (code : Code)
    (Hget : dict_get AlarmControlPanelState.eqb ALARM_STATE state = Some code)
    (Hlimit : isinstance_Delay code = true ->
              Z.abs (match delay with
                     | None => DEFAULT_DELAY
                     | Some d => d
                     end / 60) < 10 ^ 4300) :
  exists cmd,
    alarm_state_command state delay = Ok cmd
    /\ property cmd = int_of code
    /\ (isinstance_Message code = true ->
        state <> AlarmControlPanelState.TRIGGERED ->
        property_key cmd = PyInt MODE_PROPERTY_KEY
        /\ value cmd = PyInt MAX_VALUE).
Proof.
  destruct (alarm_state_command_outcome state delay code Hget)
    as [(Hd & Hcmd) | [(Hd & _ & Hcmd) | (Hd & Hge & _)]].
  - eexists. split; [exact Hcmd |]. split; [reflexivity |].
    cbn [property_key value]. intros _ Hstate.
    destruct (AlarmControlPanelState.eqb state AlarmControlPanelState.TRIGGERED) eqn:E.
    + now apply state_eqb_eq in E.
    + now split.
  - eexists. split; [exact Hcmd |]. split; [reflexivity |].
    intros Hmsg. destruct code; discriminate.
  - specialize (Hlimit Hd). exfalso.
    apply (Z.lt_irrefl (10 ^ 4300)). eapply Z.le_lt_trans; eassumption.
Qed.

(** C2.  For a state whose code in the state table is a [Delay],
    [alarm_state_command] returns a command whose [property_key] is
    the string ["timeout"] and whose [value] is the formatted delay:
    the numeral of the minutes, the letter m, the numeral of the
    seconds and the letter s, of the given delay when there is one,
    zero included, and of [DEFAULT_DELAY] when the delay is [None].
    This needs the minutes to have at most 4300 digits: beyond that
    the conversion of the minutes raises. *)
Theorem alarm_state_command_timeout
    (state : AlarmControlPanelState.t) (delay : option Z) (d : Delay.t)
    (total_seconds : Z)
    (Hget : dict_get AlarmControlPanelState.eqb ALARM_STATE state
            = Some (OfDelay d))
    (Hdelay : total_seconds = match delay with
                              | None => DEFAULT_DELAY
                              | Some seconds => seconds
                              end)
    (Hlimit : Z.abs (total_seconds / 60) < 10 ^ 4300) :
  exists cmd minutes seconds,
    alarm_state_command state delay = Ok cmd
    /\ property_key cmd = PyStr "timeout"
    /\ value cmd = PyStr (minutes ++ "m" ++ seconds ++ "s")
    /\ renders_signed (total_seconds / 60) minutes
    /\ renders (total_seconds mod 60) seconds
    /\ _format_delay (Some total_seconds)
       = Ok (minutes ++ "m" ++ seconds ++ "s")
    /\ (delay = Some 0 -> value cmd = PyStr "0m0s").
Proof.
  subst total_seconds.
  destruct (alarm_state_command_outcome state delay _ Hget)
    as [(Hd & _) | [(_ & _ & Hcmd) | (_ & Hge & _)]].
  - discriminate Hd.
  - eexists. eexists. eexists. split; [exact Hcmd |].
    split; [reflexivity |]. split; [reflexivity |].
    split; [apply int_repr_renders_signed |].
    split; [apply int_repr_renders, Z.mod_pos_bound; reflexivity |].
    split; [now apply format_delay_Ok |].
    intros ->. reflexivity.
  - exfalso. apply (Z.lt_irrefl (10 ^ 4300)). eapply Z.le_lt_trans; eassumption.
Qed.

(** C5.  For [TRIGGERED], whose code is a [Message], the command has
    [NOTIFICATION_SOUND_PROPERTY_KEY] as [property_key] and [MAX_VALUE]
    as [value]; for every other state whose code is a [Message] the
    [property_key] is [MODE_PROPERTY_KEY], with the same [value]. *)
Theorem alarm_state_command_triggered :
  (forall delay,
      isinstance_Delay (OfMessage Message.BURGLAR_ALARM) = false
      /\ dict_get AlarmControlPanelState.eqb ALARM_STATE
           AlarmControlPanelState.TRIGGERED
         = Some (OfMessage Message.BURGLAR_ALARM)
      /\ exists cmd,
          alarm_state_command AlarmControlPanelState.TRIGGERED delay = Ok cmd
          /\ property_key cmd = PyInt NOTIFICATION_SOUND_PROPERTY_KEY
          /\ value cmd = PyInt MAX_VALUE)
  /\ (forall state delay code,
        dict_get AlarmControlPanelState.eqb ALARM_STATE state = Some code ->
        isinstance_Delay code = false ->
        state <> AlarmControlPanelState.TRIGGERED ->
        exists cmd,
          alarm_state_command state delay = Ok cmd
          /\ property_key cmd = PyInt MODE_PROPERTY_KEY
          /\ value cmd = PyInt MAX_VALUE).
Proof.
  split.
  - intros delay. repeat split. eexists.
    split; [now rewrite (alarm_state_command_unfold
                           AlarmControlPanelState.TRIGGERED delay
                           (OfMessage Message.BURGLAR_ALARM) eq_refl)
           | now split].
  - intros state delay code Hget Hdelay Hstate. eexists.
    split; [rewrite (alarm_state_command_unfold _ _ _ Hget), Hdelay; reflexivity |].
    cbn [property_key value].
    destruct (AlarmControlPanelState.eqb state AlarmControlPanelState.TRIGGERED) eqn:E.
    + now apply state_eqb_eq in E.
    + now split.
Qed.

(** C10.  For a state whose code in the state table is a [Message],
    the outcome of [alarm_state_command] is the same for any two
    delays, [None] included. *)
Theorem alarm_state_command_ignores_delay
    (state : AlarmControlPanelState.t) (m : Message.t) (d1 d2 : option Z)
    (Hget : dict_get AlarmControlPanelState.eqb ALARM_STATE state
            = Some (OfMessage m)) :
  alarm_state_command state d1 = alarm_state_command state d2.
Proof.
  now rewrite (alarm_state_command_unfold state d1 _ Hget),
    (alarm_state_command_unfold state d2 _ Hget).
Qed.

(** ** The delay formatter *)

(** C3.  For a total of seconds that is not negative and below
    [60 * 10 ^ 4300], [_format_delay] returns the minutes, the letter
    m, the seconds and the letter s, where the minutes are the decimal
    numeral of the total divided by 60 and the seconds the decimal
    numeral of the remainder, neither padded with zeros; 0 gives
    ["0m0s"], 65 gives ["1m5s"] and 3600 gives ["60m0s"].  From
    [60 * 10 ^ 4300] on the minutes have more than 4300 digits and
    their conversion raises. *)
Theorem format_delay_renders (total_seconds : Z)
    (Hpos : 0 <= total_seconds) (Hlimit : total_seconds < 60 * 10 ^ 4300) :
  (exists minutes seconds,
      _format_delay (Some total_seconds)
      = Ok (minutes ++ "m" ++ seconds ++ "s")
      /\ renders (total_seconds / 60) minutes
      /\ renders (total_seconds mod 60) seconds)
  /\ _format_delay (Some 0) = Ok "0m0s"
  /\ _format_delay (Some 65) = Ok "1m5s"
  /\ _format_delay (Some 3600) = Ok "60m0s".
Proof.
  split; [| now repeat split].
  assert (Hdiv : 0 <= total_seconds / 60 < 10 ^ 4300).
  { split; [apply Z.div_pos; [exact Hpos | reflexivity] |].
    apply Z.div_lt_upper_bound; [reflexivity | exact Hlimit]. }
  exists (int_repr (total_seconds / 60)), (int_repr (total_seconds mod 60)).
  split.
  - apply format_delay_Ok. rewrite Z.abs_eq; tauto.
  - split; apply int_repr_renders; [tauto |].
    apply Z.mod_pos_bound. reflexivity.
Qed.

(** ** Unknown keys *)

(** C4.  [alarm_command] and [chime_command] raise a [ValueError]
    exactly when the name is not a key of their table, and
    [alarm_state_command] raises its [ValueError] for an invalid state
    exactly when the state is not a key of the state table; none of
    them returns a command then.  No code of the tables has the value
    [0], so the truth test of the looked-up value fails only for an
    absent key.  For a state of the table [alarm_state_command] raises
    only when the code is a [Delay] and the minutes of the delay have
    more than 4300 digits, and the [ValueError] is then the one of the
    conversion of integers. *)
Theorem raises_iff_not_a_key :
  (forall state delay,
      alarm_state_command state delay
      = Raise (ValueError ("Invalid alarm state command: "
                           ++ AlarmControlPanelState.str_value state))
      <-> ~ In state (keys ALARM_STATE))
  /\ (forall state delay,
        In state (keys ALARM_STATE) ->
        forall msg,
          alarm_state_command state delay = Raise (ValueError msg)
          <-> (msg = MAX_STR_DIGITS_ERROR
               /\ (exists d,
                      dict_get AlarmControlPanelState.eqb ALARM_STATE state
                      = Some (OfDelay d))
               /\ 10 ^ 4300 <= Z.abs (match delay with
                                      | None => DEFAULT_DELAY
                                      | Some seconds => seconds
                                      end / 60)))
  /\ (forall alarm,
        (exists msg, alarm_command alarm = Raise (ValueError msg))
        <-> ~ In alarm (keys ALARM))
  /\ (forall chime,
        (exists msg, chime_command chime = Raise (ValueError msg))
        <-> ~ In chime (keys CHIME))
  /\ (forall state delay cmd,
        ~ In state (keys ALARM_STATE) ->
        alarm_state_command state delay <> Ok cmd)
  /\ (forall alarm cmd,
        ~ In alarm (keys ALARM) -> alarm_command alarm <> Ok cmd)
  /\ (forall chime cmd,
        ~ In chime (keys CHIME) -> chime_command chime <> Ok cmd)
  /\ (forall code,
        In code (map snd ALARM_STATE ++ map snd ALARM ++ map snd CHIME) ->
        int_of code <> 0)
  /\ (forall state,
        truthy (dict_get AlarmControlPanelState.eqb ALARM_STATE state) = None
        <-> ~ In state (keys ALARM_STATE))
  /\ (forall alarm,
        truthy (dict_get String.eqb ALARM alarm) = None
        <-> ~ In alarm (keys ALARM))
  /\ (forall chime,
        truthy (dict_get String.eqb CHIME chime) = None
        <-> ~ In chime (keys CHIME)).
Proof.
  assert (Hstate : forall state delay,
             alarm_state_command state delay
             = Raise (ValueError ("Invalid alarm state command: "
                                  ++ AlarmControlPanelState.str_value state))
             <-> ~ In state (keys ALARM_STATE)).
  { intros state delay.
    rewrite <- (dict_get_None _ state_eqb_eq).
    destruct (dict_get AlarmControlPanelState.eqb ALARM_STATE state)
      as [code |] eqn:E.
    - split; [| discriminate]. intros H. exfalso.
      destruct (alarm_state_command_outcome state delay code E)
        as [(_ & Hcmd) | [(_ & _ & Hcmd) | (_ & _ & Hcmd)]];
        rewrite Hcmd in H; discriminate H.
    - rewrite (alarm_state_command_missing _ _ E). tauto. }
  assert (Halarm : forall alarm,
             (exists msg, alarm_command alarm = Raise (ValueError msg))
             <-> ~ In alarm (keys ALARM)).
  { intros alarm.
    rewrite <- (dict_get_None _ String.eqb_eq), alarm_command_unfold.
    destruct (dict_get String.eqb ALARM alarm).
    - split; [intros [msg Hmsg]; discriminate | discriminate].
    - split; [reflexivity | intros _; eexists; reflexivity]. }
  assert (Hchime : forall chime,
             (exists msg, chime_command chime = Raise (ValueError msg))
             <-> ~ In chime (keys CHIME)).
  { intros chime.
    rewrite <- (dict_get_None _ String.eqb_eq), chime_command_unfold.
    destruct (dict_get String.eqb CHIME chime).
    - split; [intros [msg Hmsg]; discriminate | discriminate].
    - split; [reflexivity | intros _; eexists; reflexivity]. }
  split; [exact Hstate |].
  split.
  { intros state delay Hin msg.
    destruct (dict_get_is_Some _ state_eqb_eq _ _ Hin) as [code E].
    destruct (alarm_state_command_outcome state delay code E)
      as [(Hd & Hcmd) | [(Hd & Hlt & Hcmd) | (Hd & Hge & Hcmd)]];
      rewrite Hcmd.
    - split; [discriminate |]. intros (_ & (d & Hd') & _).
      rewrite E in Hd'. injection Hd' as ->. discriminate Hd.
    - split; [discriminate |]. intros (_ & _ & Hge). exfalso.
      apply (Z.lt_irrefl (10 ^ 4300)). eapply Z.le_lt_trans; eassumption.
    - split.
      + intros [= <-]. split; [reflexivity |]. split; [| exact Hge].
        destruct code as [m | d | s]; try discriminate Hd. now exists d.
      + now intros (-> & _). }
  split; [exact Halarm |]. split; [exact Hchime |].
  split.
  { intros state delay cmd Hin Hok.
    apply (Hstate state delay) in Hin. congruence. }
  split.
  { intros alarm cmd Hin Hok. apply Halarm in Hin as [msg Hmsg]. congruence. }
  split.
  { intros chime cmd Hin Hok. apply Hchime in Hin as [msg Hmsg]. congruence. }
  split; [intros code _; apply int_of_nonzero |].
  split; [| split]; intros key; rewrite truthy_get.
  - apply (dict_get_None _ state_eqb_eq).
  - apply (dict_get_None _ String.eqb_eq).
  - apply (dict_get_None _ String.eqb_eq).
Qed.

(** ** The chime and alarm commands *)

(** C6.  For a chime name of the chime table, [chime_command] returns
    a command whose [property_key] is
    [NOTIFICATION_SOUND_PROPERTY_KEY] when the table gives the name a
    [NotificationSound] and [MODE_PROPERTY_KEY] when it gives a
    [Message] (the table holds no other kind), and whose [value] is
    [MAX_VALUE]; ["doorbell"] gets the first key and ["invalid_code"]
    the second. *)
Theorem chime_command_property_key :
  (forall chime code,
      dict_get String.eqb CHIME chime = Some code ->
      (isinstance_NotificationSound code = true
       \/ isinstance_Message code = true)
      /\ exists cmd,
          chime_command chime = Ok cmd
          /\ (isinstance_NotificationSound code = true ->
              property_key cmd = PyInt NOTIFICATION_SOUND_PROPERTY_KEY)
          /\ (isinstance_Message code = true ->
              property_key cmd = PyInt MODE_PROPERTY_KEY)
          /\ value cmd = PyInt MAX_VALUE)
  /\ (exists cmd,
        chime_command "doorbell" = Ok cmd
        /\ property_key cmd = PyInt NOTIFICATION_SOUND_PROPERTY_KEY
        /\ value cmd = PyInt MAX_VALUE)
  /\ (exists cmd,
        chime_command "invalid_code" = Ok cmd
        /\ property_key cmd = PyInt MODE_PROPERTY_KEY
        /\ value cmd = PyInt MAX_VALUE).
Proof.
  split; [| split; eexists; (split; [reflexivity | now split])].
  intros chime code Hget. split.
  - apply dict_get_Some_In in Hget. cbn in Hget.
    repeat (destruct Hget as [<- | Hget]; [now (left + right) |]).
    contradiction.
  - rewrite chime_command_unfold, Hget. eexists. split; [reflexivity |].
    cbn [property_key value].
    destruct code; repeat split; intros; (reflexivity || discriminate).
Qed.

(** C7.  [alarm_command] raises a [ValueError] for a name that is not
    a key of the alarm table, ["unknown"] for one; for a name of the
    table, ["medical"] for one, it returns the command whose
    [property] is the [int] of the [Message] the table gives the name,
    whose [property_key] is [NOTIFICATION_SOUND_PROPERTY_KEY] and
    whose [value] is [MAX_VALUE]. *)
Theorem alarm_command_lookup :
  (forall alarm,
      ~ In alarm (keys ALARM) ->
      alarm_command alarm
      = Raise (ValueError ("Invalid chime command: " ++ alarm)))
  /\ (forall alarm code,
        dict_get String.eqb ALARM alarm = Some code ->
        isinstance_Message code = true
        /\ alarm_command alarm
           = Ok {| command_class := COMMAND_CLASS;
                   endpoint := ENDPOINT;
                   property := int_of code;
                   property_key := PyInt NOTIFICATION_SOUND_PROPERTY_KEY;
                   value := PyInt MAX_VALUE |})
  /\ alarm_command "medical"
     = Ok {| command_class := "135";
             endpoint := 0;
             property := Message.int Message.MEDICAL_ALARM;
             property_key := PyInt 9;
             value := PyInt 100 |}
  /\ alarm_command "unknown"
     = Raise (ValueError "Invalid chime command: unknown").
Proof.
  split; [| split; [| now split]].
  - intros alarm Hin. apply (dict_get_None _ String.eqb_eq) in Hin.
    now rewrite alarm_command_unfold, Hin.
  - intros alarm code Hget. rewrite alarm_command_unfold, Hget.
    split; [| reflexivity].
    apply dict_get_Some_In in Hget. cbn in Hget.
    repeat (destruct Hget as [<- | Hget]; [reflexivity |]).
    contradiction.
Qed.

(** ** All commands *)

(** C8.  A command returned by any of the three functions has
    [COMMAND_CLASS], the string ["135"], as [command_class] and
    [ENDPOINT], the integer [0], as [endpoint]. *)
Theorem command_class_and_endpoint (cmd : Command)
    (Hret : (exists state delay, alarm_state_command state delay = Ok cmd)
            \/ (exists alarm, alarm_command alarm = Ok cmd)
            \/ (exists chime, chime_command chime = Ok cmd)) :
  command_class cmd = COMMAND_CLASS
  /\ endpoint cmd = ENDPOINT
  /\ COMMAND_CLASS = "135"
  /\ ENDPOINT = 0.
Proof.
  enough (command_class cmd = COMMAND_CLASS /\ endpoint cmd = ENDPOINT)
    by tauto.
  destruct Hret as [(state & delay & H) | [(alarm & H) | (chime & H)]].
  - apply alarm_state_command_Ok_inv in H as (message & _ & Hc & He & _).
    now split.
  - rewrite alarm_command_unfold in H.
    destruct (dict_get String.eqb ALARM alarm); [| discriminate].
    injection H as <-. now split.
  - rewrite chime_command_unfold in H.
    destruct (dict_get String.eqb CHIME chime); [| discriminate].
    injection H as <-. now split.
Qed.

(** ** Further properties *)

(** X1.  [_format_delay] is one to one on the delays it formats: when a
    delay is formatted as a string, another delay is formatted as the
    same string exactly when it is the same number of seconds, where
    [None] counts as [0]; this holds for negative delays as well. *)
Theorem format_delay_one_to_one (delay1 delay2 : option Z) (s : string)
    (Hok : _format_delay delay1 = Ok s) :
  _format_delay delay2 = Ok s
  <-> total_seconds_of delay1 = total_seconds_of delay2.
Proof.
  rewrite (format_delay_total_seconds delay1) in Hok.
  rewrite (format_delay_total_seconds delay2).
  split.
  - intros H. exact (format_delay_inj _ _ _ Hok H).
  - now intros <-.
Qed.

(** X2.  A negative delay is not clamped: when its minutes, rounded
    towards minus infinity, have at most 4300 digits, [_format_delay]
    returns a string that starts with a minus sign, followed by the
    numeral of the minutes below zero (at least one), the letter m, the
    unpadded numeral of the seconds, a number from 0 to 59, and the
    letter s. *)
Theorem format_delay_below_zero (total_seconds : Z)
    (Hneg : total_seconds < 0)
    (Hlimit : - 10 ^ 4300 < total_seconds / 60) :
  exists minutes seconds,
    _format_delay (Some total_seconds)
    = Ok ("-" ++ minutes ++ "m" ++ seconds ++ "s")
    /\ renders (- (total_seconds / 60)) minutes
    /\ 1 <= - (total_seconds / 60)
    /\ renders (total_seconds mod 60) seconds
    /\ 0 <= total_seconds mod 60 < 60
    /\ total_seconds = 60 * (total_seconds / 60) + total_seconds mod 60.
Proof.
  assert (Hdiv : total_seconds / 60 < 0)
    by (apply Z.div_lt_upper_bound; [reflexivity | exact Hneg]).
  assert (Hmod : 0 <= total_seconds mod 60 < 60)
    by (apply Z.mod_pos_bound; reflexivity).
  assert (Habs : Z.abs (total_seconds / 60) < 10 ^ 4300).
  { rewrite Z.abs_neq by (apply Z.lt_le_incl, Hdiv).
    apply Z.opp_lt_mono. now rewrite Z.opp_involutive. }
  pose proof (Z.div_mod total_seconds 60 ltac:(discriminate)) as Hdm.
  rewrite (format_delay_Ok _ Habs).
  destruct (total_seconds / 60) as [| p | p] eqn:E;
    [now apply Z.lt_irrefl in Hdiv | discriminate Hdiv |].
  exists (int_repr (Z.pos p)), (int_repr (total_seconds mod 60)).
  split; [rewrite int_repr_neg; reflexivity |].
  clear Habs Hlimit.
  split; [apply (int_repr_renders (Z.pos p)), Pos2Z.is_nonneg |].
  split; [change (- Z.neg p) with (Z.pos p); apply (Pos2Z.pos_le_pos 1), Pos.le_1_l |].
  split; [apply int_repr_renders, Hmod |].
  split; [exact Hmod | exact Hdm].
Qed.

(** X3.  No two members of [Message], [Delay] and [NotificationSound]
    have the same [int], also across the three classes: the integer of a
    code tells which member of which class it is. *)
Theorem int_of_one_to_one (c1 c2 : Code) : int_of c1 = int_of c2 <-> c1 = c2.
Proof. split; [apply int_of_inj | now intros ->]. Qed.

(** X4.  The [property] of a returned command tells the key it was
    built for: two calls of [alarm_state_command] that return commands
    with the same [property] were given the same state, whatever the
    delays, and likewise for the names given to [alarm_command] and to
    [chime_command]. *)
Theorem property_identifies_key :
  (forall s1 s2 d1 d2 cmd1 cmd2,
      alarm_state_command s1 d1 = Ok cmd1 ->
      alarm_state_command s2 d2 = Ok cmd2 ->
      property cmd1 = property cmd2 -> s1 = s2)
  /\ (forall a1 a2 cmd1 cmd2,
        alarm_command a1 = Ok cmd1 ->
        alarm_command a2 = Ok cmd2 ->
        property cmd1 = property cmd2 -> a1 = a2)
  /\ (forall c1 c2 cmd1 cmd2,
        chime_command c1 = Ok cmd1 ->
        chime_command c2 = Ok cmd2 ->
        property cmd1 = property cmd2 -> c1 = c2).
Proof.
  split; [| split].
  - intros s1 s2 d1 d2 cmd1 cmd2 H1 H2 Hp.
    apply alarm_state_command_Ok_inv in H1 as (k1 & E1 & _ & _ & P1 & _).
    apply alarm_state_command_Ok_inv in H2 as (k2 & E2 & _ & _ & P2 & _).
    rewrite P1, P2 in Hp. apply int_of_inj in Hp. subst k2.
    exact (ALARM_STATE_inj _ _ _ E1 E2).
  - intros a1 a2 cmd1 cmd2 H1 H2 Hp.
    rewrite alarm_command_unfold in H1, H2.
    destruct (dict_get String.eqb ALARM a1) as [k1 |] eqn:E1; [| discriminate].
    destruct (dict_get String.eqb ALARM a2) as [k2 |] eqn:E2; [| discriminate].
    injection H1 as <-. injection H2 as <-. cbn [property] in Hp.
    apply int_of_inj in Hp. subst k2. exact (ALARM_inj _ _ _ E1 E2).
  - intros c1 c2 cmd1 cmd2 H1 H2 Hp.
    rewrite chime_command_unfold in H1, H2.
    destruct (dict_get String.eqb CHIME c1) as [k1 |] eqn:E1; [| discriminate].
    destruct (dict_get String.eqb CHIME c2) as [k2 |] eqn:E2; [| discriminate].
    injection H1 as <-. injection H2 as <-. cbn [property] in Hp.
    apply int_of_inj in Hp. subst k2. exact (CHIME_inj _ _ _ E1 E2).
Qed.

(** X5.  For a state whose code is a [Delay], when a call of
    [alarm_state_command] returns a command, a call with another delay
    returns the same command exactly when the two delays count the
    same seconds, where [None] counts as [DEFAULT_DELAY]: leaving the
    delay out is the same as passing [DEFAULT_DELAY], and any other
    delay that is formatted gives another command. *)
Theorem alarm_state_command_delay_matters
    (state : AlarmControlPanelState.t) (d : Delay.t) (delay1 delay2 : option Z)
    (cmd : Command)
    (Hget : dict_get AlarmControlPanelState.eqb ALARM_STATE state
            = Some (OfDelay d))
    (Hok : alarm_state_command state delay1 = Ok cmd) :
  alarm_state_command state delay2 = Ok cmd
  <-> match delay1 with Some s => s | None => DEFAULT_DELAY end
      = match delay2 with Some s => s | None => DEFAULT_DELAY end.
Proof.
  rewrite (alarm_state_command_unfold _ delay1 _ Hget) in Hok.
  rewrite (alarm_state_command_unfold _ delay2 _ Hget).
  cbn [isinstance_Delay] in *.
  destruct (_format_delay (Some match delay1 with Some s => s | None => DEFAULT_DELAY end))
    as [s1 |] eqn:H1; [| discriminate Hok].
  cbn [bind] in Hok. injection Hok as <-.
  split.
  - destruct (_format_delay (Some match delay2 with Some s => s | None => DEFAULT_DELAY end))
      as [s2 |] eqn:H2; [| discriminate].
    cbn [bind]. intros [= ->]. exact (format_delay_inj _ _ _ H1 H2).
  - intros <-. now rewrite H1.
Qed.

(** X6.  The shape of every command the three functions return: the
    [property_key] is [MODE_PROPERTY_KEY], [NOTIFICATION_SOUND_PROPERTY_KEY]
    or the string ["timeout"], and never [DELAY_PROPERTY_KEY]; it is
    ["timeout"] exactly when the [property] is one of the two delay
    codes, 17 and 18, and then the [value] is a string; otherwise the
    [value] is [MAX_VALUE]; the [property] lies between 2 and 100. *)
Theorem command_shape (cmd : Command)
    (Hret : (exists state delay, alarm_state_command state delay = Ok cmd)
            \/ (exists alarm, alarm_command alarm = Ok cmd)
            \/ (exists chime, chime_command chime = Ok cmd)) :
  (property_key cmd = PyInt MODE_PROPERTY_KEY
   \/ property_key cmd = PyInt NOTIFICATION_SOUND_PROPERTY_KEY
   \/ property_key cmd = PyStr PROPERTY_KEY_TIMEOUT)
  /\ property_key cmd <> PyInt DELAY_PROPERTY_KEY
  /\ (property_key cmd = PyStr PROPERTY_KEY_TIMEOUT
      <-> property cmd = 17 \/ property cmd = 18)
  /\ (property_key cmd = PyStr PROPERTY_KEY_TIMEOUT ->
      exists s, value cmd = PyStr s)
  /\ (property_key cmd <> PyStr PROPERTY_KEY_TIMEOUT ->
      value cmd = PyInt MAX_VALUE)
  /\ 2 <= property cmd <= 100.
Proof.
  destruct Hret as [(state & delay & H) | [(alarm & H) | (chime & H)]].
  - apply alarm_state_command_Ok_inv in H
      as (message & E & _ & _ & Hp & [(Hd & Hk & Hv) | (Hd & Hk & s & Hv & _)]);
      rewrite Hp, Hk, Hv;
      apply (dict_get_Some_In_pair _ state_eqb_eq) in E;
      in_cases E; try discriminate Hd;
      cbn [AlarmControlPanelState.eqb int_of];
      (split; [auto |]); (split; [discriminate |]);
      (split; [split; [discriminate || (intros _; cbn; auto)
                      | intros [? | ?]; (reflexivity || discriminate)] |]);
      (split; [discriminate || (intros _; eexists; reflexivity) |]);
      (split; [reflexivity || (intros Hk'; now elim Hk') |]);
      cbn; lia.
  - rewrite alarm_command_unfold in H.
    destruct (dict_get String.eqb ALARM alarm) as [code |] eqn:E; [| discriminate].
    injection H as <-.
    apply (dict_get_Some_In_pair _ String.eqb_eq) in E.
    in_cases E; cbn [property_key value property int_of];
      (split; [auto |]); (split; [discriminate |]);
      (split; [split; [discriminate | intros [? | ?]; discriminate] |]);
      (split; [discriminate |]); (split; [reflexivity |]); cbn; lia.
  - rewrite chime_command_unfold in H.
    destruct (dict_get String.eqb CHIME chime) as [code |] eqn:E; [| discriminate].
    injection H as <-.
    apply (dict_get_Some_In_pair _ String.eqb_eq) in E.
    in_cases E;
      cbn [property_key value property int_of isinstance_NotificationSound];
      (split; [auto |]); (split; [discriminate |]);
      (split; [split; [discriminate | intros [? | ?]; discriminate] |]);
      (split; [discriminate |]); (split; [reflexivity |]); cbn; lia.
Qed.

(** X7.  [alarm_command] and [chime_command] have the same outcome for a
    name exactly when the name is a key of neither table: both then
    raise the same [ValueError], whose message speaks of a chime, and no
    name gets a command from both. *)
Theorem alarm_and_chime_agree_on_unknown (name : string) :
  alarm_command name = chime_command name
  <-> (~ In name (keys ALARM) /\ ~ In name (keys CHIME)
       /\ alarm_command name
          = Raise (ValueError ("Invalid chime command: " ++ name))).
Proof.
  rewrite <- !(dict_get_None _ String.eqb_eq).
  rewrite alarm_command_unfold, chime_command_unfold.
  destruct (dict_get String.eqb ALARM name) as [k1 |] eqn:E1;
    destruct (dict_get String.eqb CHIME name) as [k2 |] eqn:E2.
  - destruct (ALARM_CHIME_apart _ _ _ _ E1 E2) as [Hname _]. now elim Hname.
  - split; [discriminate | intros (H & _); discriminate H].
  - split; [discriminate | intros (_ & H & _); discriminate H].
  - tauto.
Qed.

(** X8.  Among the commands of [alarm_state_command] only the one for
    [TRIGGERED] has [NOTIFICATION_SOUND_PROPERTY_KEY] as [property_key],
    and it is the command [alarm_command] returns for ["burglar"]. *)
Theorem triggered_is_burglar_alarm
    (state : AlarmControlPanelState.t) (delay : option Z) (cmd : Command)
    (Hret : alarm_state_command state delay = Ok cmd)
    (Hkey : property_key cmd = PyInt NOTIFICATION_SOUND_PROPERTY_KEY) :
  state = AlarmControlPanelState.TRIGGERED
  /\ alarm_command "burglar" = Ok cmd.
Proof.
  apply alarm_state_command_Ok_inv in Hret
    as (message & E & Hc & He & Hp & [(Hd & Hk & Hv) | (Hd & Hk & _)]);
    [| rewrite Hk in Hkey; discriminate Hkey].
  rewrite Hk in Hkey.
  destruct (AlarmControlPanelState.eqb state AlarmControlPanelState.TRIGGERED) eqn:Et;
    [| discriminate Hkey].
  apply state_eqb_eq in Et. subst state. split; [reflexivity |].
  injection E as <-. destruct cmd as [c e p k v]. cbn in *. now subst.
Qed.

(** X9.  [KEYAD_EVENTS] names each event once and numbers each event
    once, so that either the name or the number of an entry finds it;
    every number lies between 0 and 25 and every event type is one of
    four. *)
Theorem KEYAD_EVENTS_unambiguous (e1 e2 : string * Z * string)
    (H1 : In e1 KEYAD_EVENTS) (H2 : In e2 KEYAD_EVENTS)
    (Hsame : event_name e1 = event_name e2
             \/ event_number e1 = event_number e2) :
  e1 = e2
  /\ 0 <= event_number e1 <= 25
  /\ In (event_type e1)
       ["pressed"; "alarm_disarm"; "alarm_arm_away"; "alarm_arm_home"].
Proof.
  cbn [In KEYAD_EVENTS] in H1, H2.
  repeat (destruct H1 as [<- | H1]); try contradiction;
    (repeat (destruct H2 as [<- | H2]); try contradiction;
     (split; [destruct Hsame as [H | H]; (reflexivity || discriminate H) |]);
     (split; [cbn; lia | cbn; tauto])).
Qed.

End Model.

(** ** Evaluations

    The functions run: a few calls, with [DEFAULT_DELAY] taken to be 30
    seconds. *)

Example pending_without_delay :
  alarm_state_command 30 AlarmControlPanelState.PENDING None
  = Ok {| command_class := "135";
          endpoint := 0;
          property := 17;
          property_key := PyStr "timeout";
          value := PyStr "0m30s" |}.
Proof. reflexivity. Qed.

Example arming_with_delay :
  alarm_state_command 30 AlarmControlPanelState.ARMING (Some 90)
  = Ok {| command_class := "135";
          endpoint := 0;
          property := 18;
          property_key := PyStr "timeout";
          value := PyStr "1m30s" |}.
Proof. reflexivity. Qed.

Example armed_away_command :
  alarm_state_command 30 AlarmControlPanelState.ARMED_AWAY (Some 90)
  = Ok {| command_class := "135";
          endpoint := 0;
          property := 11;
          property_key := PyInt 1;
          value := PyInt 100 |}.
Proof. reflexivity. Qed.

Example armed_night_is_no_key :
  alarm_state_command 30 AlarmControlPanelState.ARMED_NIGHT None
  = Raise (ValueError "Invalid alarm state command: armed_night").
Proof. reflexivity. Qed.

(** Python's [//] and [%] round down, so a negative delay borrows a
    minute. *)
Example format_delay_negative : _format_delay (Some (-5)) = Ok "-1m55s".
Proof. reflexivity. Qed.

Example format_delay_none : _format_delay None = Ok "0m0s".
Proof. reflexivity. Qed.

(** A state whose code is a [Message] is not touched by the limit on
    digits: its delay is never formatted. *)
Example disarmed_with_huge_delay :
  alarm_state_command 30 AlarmControlPanelState.DISARMED (Some (60 * 10 ^ 4300))
  = Ok {| command_class := "135";
          endpoint := 0;
          property := 2;
          property_key := PyInt 1;
          value := PyInt 100 |}.
Proof. reflexivity. Qed.

(** ** Instances

    The theorems that carry a hypothesis, applied to one input each, with
    [DEFAULT_DELAY] taken to be 30 seconds. *)

Lemma alarm_state_command_property_witness :
  dict_get AlarmControlPanelState.eqb ALARM_STATE
    AlarmControlPanelState.PENDING
  = Some (OfDelay Delay.ENTRY_DELAY)
  /\ Z.abs (30 / 60) < 10 ^ 4300
  /\ exists cmd,
      alarm_state_command 30 AlarmControlPanelState.PENDING None = Ok cmd
      /\ property cmd = 17
      /\ (isinstance_Message (OfDelay Delay.ENTRY_DELAY) = true ->
          AlarmControlPanelState.PENDING <> AlarmControlPanelState.TRIGGERED ->
          property_key cmd = PyInt 1 /\ value cmd = PyInt 100).
Proof.
  split; [reflexivity |]. split; [apply below_limit; reflexivity |].
  apply (alarm_state_command_property 30 AlarmControlPanelState.PENDING
           None (OfDelay Delay.ENTRY_DELAY)).
  - reflexivity.
  - intros _. apply below_limit. reflexivity.
Defined.

Lemma alarm_state_command_timeout_witness :
  dict_get AlarmControlPanelState.eqb ALARM_STATE
    AlarmControlPanelState.PENDING
  = Some (OfDelay Delay.ENTRY_DELAY)
  /\ Z.abs (0 / 60) < 10 ^ 4300
  /\ exists cmd minutes seconds,
      alarm_state_command 30 AlarmControlPanelState.PENDING (Some 0) = Ok cmd
      /\ property_key cmd = PyStr "timeout"
      /\ value cmd = PyStr (minutes ++ "m" ++ seconds ++ "s")
      /\ renders_signed (0 / 60) minutes
      /\ renders (0 mod 60) seconds
      /\ _format_delay (Some 0) = Ok (minutes ++ "m" ++ seconds ++ "s")
      /\ (Some 0 = Some 0 -> value cmd = PyStr "0m0s").
Proof.
  split; [reflexivity |]. split; [apply below_limit; reflexivity |].
  apply (alarm_state_command_timeout 30 AlarmControlPanelState.PENDING
           (Some 0) Delay.ENTRY_DELAY 0);
    [reflexivity | reflexivity | apply below_limit; reflexivity].
Defined.

Lemma format_delay_renders_witness :
  0 <= 90
  /\ 90 < 60 * 10 ^ 4300
  /\ (exists minutes seconds,
         _format_delay (Some 90) = Ok (minutes ++ "m" ++ seconds ++ "s")
         /\ renders (90 / 60) minutes
         /\ renders (90 mod 60) seconds)
  /\ _format_delay (Some 0) = Ok "0m0s"
  /\ _format_delay (Some 65) = Ok "1m5s"
  /\ _format_delay (Some 3600) = Ok "60m0s".
Proof.
  split; [discriminate |]. split; [apply seconds_below_limit; reflexivity |].
  apply (format_delay_renders 90);
    [discriminate | apply seconds_below_limit; reflexivity].
Defined.

Lemma command_class_and_endpoint_witness :
  chime_command "doorbell"
  = Ok {| command_class := "135";
          endpoint := 0;
          property := 100;
          property_key := PyInt 9;
          value := PyInt 100 |}
  /\ command_class {| command_class := "135";
                      endpoint := 0;
                      property := 100;
                      property_key := PyInt 9;
                      value := PyInt 100 |} = COMMAND_CLASS
  /\ endpoint {| command_class := "135";
                 endpoint := 0;
                 property := 100;
                 property_key := PyInt 9;
                 value := PyInt 100 |} = ENDPOINT
  /\ COMMAND_CLASS = "135"
  /\ ENDPOINT = 0.
Proof.
  split; [reflexivity |].
  apply (command_class_and_endpoint 30).
  right. right. exists "doorbell". reflexivity.
Defined.

Lemma alarm_state_command_ignores_delay_witness :
  dict_get AlarmControlPanelState.eqb ALARM_STATE
    AlarmControlPanelState.DISARMED
  = Some (OfMessage Message.DISARMED)
  /\ alarm_state_command 30 AlarmControlPanelState.DISARMED None
     = alarm_state_command 30 AlarmControlPanelState.DISARMED (Some 45).
Proof.
  split; [reflexivity |].
  apply (alarm_state_command_ignores_delay 30 AlarmControlPanelState.DISARMED
           Message.DISARMED).
  reflexivity.
Defined.

Lemma format_delay_one_to_one_witness :
  _format_delay None = Ok "0m0s"
  /\ (_format_delay (Some 0) = Ok "0m0s"
      <-> total_seconds_of None = total_seconds_of (Some 0)).
Proof.
  split; [reflexivity |].
  apply (format_delay_one_to_one None (Some 0) "0m0s"). reflexivity.
Defined.

Lemma format_delay_below_zero_witness :
  -5 < 0
  /\ - 10 ^ 4300 < -5 / 60
  /\ exists minutes seconds,
      _format_delay (Some (-5)) = Ok ("-" ++ minutes ++ "m" ++ seconds ++ "s")
      /\ renders (- (-5 / 60)) minutes
      /\ 1 <= - (-5 / 60)
      /\ renders (-5 mod 60) seconds
      /\ 0 <= -5 mod 60 < 60
      /\ -5 = 60 * (-5 / 60) + -5 mod 60.
Proof.
  split; [reflexivity |]. split; [apply above_limit; reflexivity |].
  apply (format_delay_below_zero (-5));
    [reflexivity | apply above_limit; reflexivity].
Defined.

Lemma alarm_state_command_delay_matters_witness :
  dict_get AlarmControlPanelState.eqb ALARM_STATE
    AlarmControlPanelState.PENDING
  = Some (OfDelay Delay.ENTRY_DELAY)
  /\ exists cmd,
      alarm_state_command 30 AlarmControlPanelState.PENDING None = Ok cmd
      /\ (alarm_state_command 30 AlarmControlPanelState.PENDING (Some 45) = Ok cmd
          <-> 30 = 45).
Proof.
  split; [reflexivity |]. eexists. split; [reflexivity |].
  apply (alarm_state_command_delay_matters 30 AlarmControlPanelState.PENDING
           Delay.ENTRY_DELAY None (Some 45)); reflexivity.
Defined.

Lemma command_shape_witness :
  exists cmd,
    alarm_state_command 30 AlarmControlPanelState.ARMING (Some 90) = Ok cmd
    /\ (property_key cmd = PyInt MODE_PROPERTY_KEY
        \/ property_key cmd = PyInt NOTIFICATION_SOUND_PROPERTY_KEY
        \/ property_key cmd = PyStr PROPERTY_KEY_TIMEOUT)
    /\ property_key cmd <> PyInt DELAY_PROPERTY_KEY
    /\ (property_key cmd = PyStr PROPERTY_KEY_TIMEOUT
        <-> property cmd = 17 \/ property cmd = 18)
    /\ (property_key cmd = PyStr PROPERTY_KEY_TIMEOUT ->
        exists s, value cmd = PyStr s)
    /\ (property_key cmd <> PyStr PROPERTY_KEY_TIMEOUT ->
        value cmd = PyInt MAX_VALUE)
    /\ 2 <= property cmd <= 100.
Proof.
  eexists. split; [reflexivity |].
  apply (command_shape 30). left.
  exists AlarmControlPanelState.ARMING, (Some 90). reflexivity.
Defined.

Lemma triggered_is_burglar_alarm_witness :
  exists cmd,
    alarm_state_command 30 AlarmControlPanelState.TRIGGERED None = Ok cmd
    /\ property_key cmd = PyInt NOTIFICATION_SOUND_PROPERTY_KEY
    /\ AlarmControlPanelState.TRIGGERED = AlarmControlPanelState.TRIGGERED
    /\ alarm_command "burglar" = Ok cmd.
Proof.
  eexists. split; [reflexivity |]. split; [reflexivity |].
  apply (triggered_is_burglar_alarm 30 AlarmControlPanelState.TRIGGERED None);
    reflexivity.
Defined.

Lemma KEYAD_EVENTS_unambiguous_witness :
  In ("medical", 19, "pressed") KEYAD_EVENTS
  /\ (event_name ("medical", 19, "pressed") = event_name ("medical", 19, "pressed")
      \/ event_number ("medical", 19, "pressed")
         = event_number ("medical", 19, "pressed"))
  /\ ("medical", 19, "pressed") = ("medical", 19, "pressed")
  /\ 0 <= event_number ("medical", 19, "pressed") <= 25
  /\ In (event_type ("medical", 19, "pressed"))
       ["pressed"; "alarm_disarm"; "alarm_arm_away"; "alarm_arm_home"].
Proof.
  assert (Hin : In ("medical", 19, "pressed") KEYAD_EVENTS) by (cbn; tauto).
  split; [exact Hin |]. split; [now right |].
  apply (KEYAD_EVENTS_unambiguous _ _ Hin Hin). now right.
Defined.

(** ** Beyond the limit on digits

    The least delay whose minutes have 4301 digits, [60 * 10 ^ 4300]:
    for a state whose code is a [Delay] the call raises, although the
    state is a key of the table. *)

(** C1 as first stated fails: [ARMING] is in the table and no command
    is returned. *)
Lemma alarm_state_command_property_over_limit :
  dict_get AlarmControlPanelState.eqb ALARM_STATE
    AlarmControlPanelState.ARMING
  = Some (OfDelay Delay.EXIT_DELAY)
  /\ alarm_state_command 30 AlarmControlPanelState.ARMING
       (Some (60 * 10 ^ 4300))
     = Raise (ValueError MAX_STR_DIGITS_ERROR)
  /\ ~ (exists cmd,
          alarm_state_command 30 AlarmControlPanelState.ARMING
            (Some (60 * 10 ^ 4300)) = Ok cmd
          /\ property cmd = int_of (OfDelay Delay.EXIT_DELAY)
          /\ (isinstance_Message (OfDelay Delay.EXIT_DELAY) = true ->
              AlarmControlPanelState.ARMING <> AlarmControlPanelState.TRIGGERED ->
              property_key cmd = PyInt MODE_PROPERTY_KEY
              /\ value cmd = PyInt MAX_VALUE)).
Proof.
  assert (Hraise : alarm_state_command 30 AlarmControlPanelState.ARMING
                     (Some (60 * 10 ^ 4300))
                   = Raise (ValueError MAX_STR_DIGITS_ERROR)).
  { rewrite (alarm_state_command_unfold 30 AlarmControlPanelState.ARMING
               (Some (60 * 10 ^ 4300)) (OfDelay Delay.EXIT_DELAY) eq_refl).
    cbv beta iota delta [isinstance_Delay].
    rewrite format_delay_over_limit. reflexivity. }
  split; [reflexivity |]. split; [exact Hraise |].
  intros (cmd & Hok & _). rewrite Hraise in Hok. discriminate Hok.
Qed.

(** C2 as first stated fails: the code of [PENDING] is a [Delay] and no
    command is returned. *)
Lemma alarm_state_command_timeout_over_limit :
  dict_get AlarmControlPanelState.eqb ALARM_STATE
    AlarmControlPanelState.PENDING
  = Some (OfDelay Delay.ENTRY_DELAY)
  /\ alarm_state_command 30 AlarmControlPanelState.PENDING
       (Some (60 * 10 ^ 4300))
     = Raise (ValueError MAX_STR_DIGITS_ERROR)
  /\ ~ (exists cmd,
          alarm_state_command 30 AlarmControlPanelState.PENDING
            (Some (60 * 10 ^ 4300)) = Ok cmd
          /\ property_key cmd = PyStr "timeout"
          /\ exists s, value cmd = PyStr s).
Proof.
  assert (Hraise : alarm_state_command 30 AlarmControlPanelState.PENDING
                     (Some (60 * 10 ^ 4300))
                   = Raise (ValueError MAX_STR_DIGITS_ERROR)).
  { rewrite (alarm_state_command_unfold 30 AlarmControlPanelState.PENDING
               (Some (60 * 10 ^ 4300)) (OfDelay Delay.ENTRY_DELAY) eq_refl).
    cbv beta iota delta [isinstance_Delay].
    rewrite format_delay_over_limit. reflexivity. }
  split; [reflexivity |]. split; [exact Hraise |].
  intros (cmd & Hok & _). rewrite Hraise in Hok. discriminate Hok.
Qed.

(** C3 as first stated fails: the total is not negative and no string
    is returned. *)
Lemma format_delay_renders_over_limit :
  0 <= 60 * 10 ^ 4300
  /\ _format_delay (Some (60 * 10 ^ 4300))
     = Raise (ValueError MAX_STR_DIGITS_ERROR)
  /\ ~ (exists minutes seconds,
          _format_delay (Some (60 * 10 ^ 4300))
          = Ok (minutes ++ "m" ++ seconds ++ "s")
          /\ renders (60 * 10 ^ 4300 / 60) minutes
          /\ renders ((60 * 10 ^ 4300) mod 60) seconds).
Proof.
  split; [apply Z.mul_nonneg_nonneg; [| apply Z.pow_nonneg]; discriminate |].
  split; [exact format_delay_over_limit |].
  intros (minutes & seconds & Hok & _).
  rewrite format_delay_over_limit in Hok. discriminate Hok.
Qed.

(** C4 as first stated fails: a [ValueError] is raised for a state that
    is a key of the table. *)
Lemma raises_for_a_key :
  In AlarmControlPanelState.ARMING (keys ALARM_STATE)
  /\ (exists msg,
        alarm_state_command 30 AlarmControlPanelState.ARMING
          (Some (60 * 10 ^ 4300)) = Raise (ValueError msg))
  /\ ~ ((exists msg,
           alarm_state_command 30 AlarmControlPanelState.ARMING
             (Some (60 * 10 ^ 4300)) = Raise (ValueError msg))
        <-> ~ In AlarmControlPanelState.ARMING (keys ALARM_STATE)).
Proof.
  assert (Hin : In AlarmControlPanelState.ARMING (keys ALARM_STATE))
    by (right; right; left; reflexivity).
  assert (Hraise : exists msg,
             alarm_state_command 30 AlarmControlPanelState.ARMING
               (Some (60 * 10 ^ 4300)) = Raise (ValueError msg)).
  { exists MAX_STR_DIGITS_ERROR.
    rewrite (alarm_state_command_unfold 30 AlarmControlPanelState.ARMING
               (Some (60 * 10 ^ 4300)) (OfDelay Delay.EXIT_DELAY) eq_refl).
    cbv beta iota delta [isinstance_Delay].
    rewrite format_delay_over_limit. reflexivity. }
  split; [exact Hin |]. split; [exact Hraise |].
  intros [Himp _]. exact (Himp Hraise Hin).
Qed.
